(** * The Poetry-to-UV migration script, [migrate_to_uv.py]

    A shallow embedding of the script and the properties of its workflow.

    The script is a straight line of file copies and shell invocations.  It
    is embedded as a state-and-exception monad over

    - the working directory, a finite map from path names to nodes;
    - the log of everything the script did that can be observed from
      outside: lines printed, commands started, files changed.

    The external tools are collaborators that the script inspects only
    through the result of each shell call.  They are a parameter of the
    model, the [world]: what [subprocess.run] answers for each command
    line.  The working directory component records the files as the script
    sees and changes them.

    What the model leaves out.  A command answers with a return code and
    its two texts, or is interrupted by the user; what a command itself
    writes into the directory is not recorded, captured output is taken to
    be decodable text, and an interruption arrives only while a command
    runs.  A path is a regular file or a directory: links, permissions and
    the other reasons for which a file operation can fail are not
    represented.  The properties below are properties of the script's own
    operations under these assumptions. *)

From Stdlib Require Import ZArith List.
From stdpp Require Import base strings gmap list.

Local Open Scope string_scope.
Local Open Scope list_scope.
Local Open Scope Z_scope.

(** ** The working directory *)

(** A path names a regular file with its text, or a directory with its
    entries. *)
#[warnings="-register-all"]
Inductive node : Type :=
| File (content : string)
| Dir (entries : list (string * node)).

Fixpoint entry_lookup (name : string) (es : list (string * node)) : option node :=
  match es with
  | [] => None
  | (n, x) :: es' => if String.eqb n name then Some x else entry_lookup name es'
  end.

Fixpoint entry_put (name : string) (x : node) (es : list (string * node))
  : list (string * node) :=
  match es with
  | [] => [(name, x)]
  | (n, y) :: es' =>
      if String.eqb n name then (n, x) :: es' else (n, y) :: entry_put name x es'
  end.

(** ** Exceptions, process results, printed lines *)

(** The three kinds of Python exception the script distinguishes:
    [except Exception] catches neither of the first two. *)
Inductive exn : Type :=
| KeyboardInterrupt
| SystemExit (code : Z)
| Exception (what : string).

(** [subprocess.CompletedProcess]; the two texts are [None] when the output
    was not captured. *)
Record CompletedProcess : Type := mkCompleted {
  returncode : Z;
  stdout : option string;
  stderr : option string
}.

(** What a shell call does: it runs to completion with a return code and
    its two output texts, or the user interrupts it.  With [shell=True] a
    program that cannot be found is the shell's own non-zero return code,
    not an error of the call. *)
Inductive proc : Type :=
| Completed (rc : Z) (out err : string)
| Interrupted.

Definition world : Type := string -> proc.

(** One constructor per [print] call of the script; the arguments are the
    values the line is made from.  Where the script prints captured output
    it strips the surrounding white space first; the constructor carries
    the text as captured. *)
Inductive msg : Type :=
(* run_command *)
| CommandFailed (cmd : string)
| CommandError (err : option string)
(* check_prerequisites *)
| CheckingPrerequisites
| NoPyproject
| UvNotFound
| UvInstallHint
| UvFound (out : option string)
| PoetryFound (out : option string)
| PoetryNotFound
(* backup_existing_files *)
| CreatingBackups
| BackedUp (original backup : string)
| BackupsCreated
(* setup_uv_configuration *)
| SettingUp
| CopiedUvConfig
| UvConfigNotFound
(* install_dependencies *)
| Installing
| InstallFailed
| Installed
(* setup_pre_commit *)
| SettingUpHooks
| HooksFailed
| HooksInstalled
(* verify_installation *)
| Verifying
| PythonNotWorking
| PythonVersion (out : option string)
| ImportFailed
| ImportOk
| PytestNotAvailable
| PytestVersion (out : option string)
| Verified
(* cleanup_poetry_files *)
| CleaningUp
| RemovedDirectory (path : string)
| RemovedFile (path : string)
| KeepingBackups
(* show_next_steps *)
| NextSteps
(* main *)
| Banner
| Rule
| AlreadyExists
| UseForce
| MayHaveIssues
| Cancelled
| MigrationFailed (what : string)
| RestoreHint.

(** What the script does that is visible from outside. *)
Inductive event : Type :=
| Print (m : msg)
| Exec (cmd : string)
| Copied (src dst : string)
| Unlinked (path : string)
| RemovedTree (path : string).

Definition is_mutation (e : event) : bool :=
  match e with
  | Copied _ _ | Unlinked _ | RemovedTree _ => true
  | Print _ | Exec _ => false
  end.

(** ** The monad *)

Record state : Type := mkState {
  fs : gmap string node;
  log : list event
}.

Inductive result (A : Type) : Type :=
| Ok (a : A)
| Raise (e : exn).
Arguments Ok {A} a.
Arguments Raise {A} e.

Definition M (A : Type) : Type := state -> result A * state.

Definition ret {A} (a : A) : M A := fun st => (Ok a, st).

Definition bind {A B} (m : M A) (k : A -> M B) : M B :=
  fun st =>
    match m st with
    | (Ok a, st') => k a st'
    | (Raise e, st') => (Raise e, st')
    end.

Definition raise {A} (e : exn) : M A := fun st => (Raise e, st).

Declare Scope py_scope.
Delimit Scope py_scope with py.
Notation "'let*' x ':=' c 'in' k" := (bind c (fun x => k))
  (at level 10, x name, c at level 100, k at level 200, only parsing) : py_scope.
Notation "c '>>' k" := (bind c (fun _ => k))
  (at level 190, right associativity, only parsing) : py_scope.
Local Open Scope py_scope.

Definition emit (e : event) : M unit :=
  fun st => (Ok tt, mkState (fs st) (log st ++ [e])).

Definition print (m : msg) : M unit := emit (Print m).

(** [sys.exit(n)] raises [SystemExit]. *)
Definition sys_exit {A} (n : Z) : M A := raise (SystemExit n).

Fixpoint for_each {A} (xs : list A) (body : A -> M unit) : M unit :=
  match xs with
  | [] => ret tt
  | x :: xs' => body x >> for_each xs' body
  end.

(** [try: body / except KeyboardInterrupt: .. / except Exception as e: ..].
    [SystemExit] passes through both handlers. *)
Definition try_except {A} (body : M A) (on_interrupt : M A)
    (on_exception : string -> M A) : M A :=
  fun st =>
    match body st with
    | (Raise KeyboardInterrupt, st') => on_interrupt st'
    | (Raise (Exception what), st') => on_exception what st'
    | r => r
    end.

(** ** File operations of [pathlib] and [shutil] *)

(** [Path(p).exists()] *)
Definition path_exists (p : string) : M bool :=
  fun st => (Ok (bool_decide (is_Some (fs st !! p))), st).

(** [Path(p).is_dir()] *)
Definition path_is_dir (p : string) : M bool :=
  fun st =>
    (Ok (match fs st !! p with Some (Dir _) => true | _ => false end), st).

(** [shutil.copy2(src, dst)] on the directory tree.  The source must be a
    regular file.  A destination that is a directory receives the copy under
    the source's name; the paths of this script have no directory part, so
    that name is [src] itself. *)
Definition fs_copy2 (src dst : string) (m : gmap string node)
  : result (gmap string node) :=
  match m !! src with
  | None => Raise (Exception "FileNotFoundError")
  | Some (Dir _) => Raise (Exception "IsADirectoryError")
  | Some (File c) =>
      match m !! dst with
      | Some (Dir es) =>
          match entry_lookup src es with
          | Some (Dir _) => Raise (Exception "IsADirectoryError")
          | _ => Ok (<[dst := Dir (entry_put src (File c) es)]> m)
          end
      | _ => Ok (<[dst := File c]> m)
      end
  end.

(** [Path(p).unlink()] *)
Definition fs_unlink (p : string) (m : gmap string node)
  : result (gmap string node) :=
  match m !! p with
  | None => Raise (Exception "FileNotFoundError")
  | Some (Dir _) => Raise (Exception "IsADirectoryError")
  | Some (File _) => Ok (delete p m)
  end.

(** [shutil.rmtree(p)] *)
Definition fs_rmtree (p : string) (m : gmap string node)
  : result (gmap string node) :=
  match m !! p with
  | None => Raise (Exception "FileNotFoundError")
  | Some (File _) => Raise (Exception "NotADirectoryError")
  | Some (Dir _) => Ok (delete p m)
  end.

(** A file operation changes the directory and is logged when it succeeds;
    when it raises, the directory is as before. *)
Definition mutate (op : gmap string node -> result (gmap string node))
    (e : event) : M unit :=
  fun st =>
    match op (fs st) with
    | Ok m' => (Ok tt, mkState m' (log st ++ [e]))
    | Raise x => (Raise x, st)
    end.

Definition copy2 (src dst : string) : M unit :=
  mutate (fs_copy2 src dst) (Copied src dst).

Definition unlink (p : string) : M unit :=
  mutate (fs_unlink p) (Unlinked p).

Definition rmtree (p : string) : M unit :=
  mutate (fs_rmtree p) (RemovedTree p).

(** ** The script *)

Record Args : Type := mkArgs {
  cleanup : bool;
  force : bool
}.

(** [not result or result.returncode != 0] *)
Definition failed (r : option CompletedProcess) : bool :=
  match r with
  | None => true
  | Some c => negb (returncode c =? 0)
  end.

Definition stdout_of (r : option CompletedProcess) : option string :=
  match r with
  | None => None
  | Some c => stdout c
  end.

Definition uv_version_cmd : string := "uv --version".
Definition poetry_version_cmd : string := "poetry --version".
Definition uv_sync_cmd : string := "uv sync --dev".
Definition pre_commit_cmd : string := "uv run pre-commit install".
Definition python_version_cmd : string := "uv run python --version".
(** The double quote of the Python literal, written by its code. *)
Definition dquote : string := String (Ascii.ascii_of_nat 34) EmptyString.

Definition import_cmd : string :=
  ("uv run python -c 'import themefinder; print(" ++ dquote
   ++ "ThemeFinder import successful" ++ dquote ++ ")'")%string.
Definition pytest_version_cmd : string := "uv run pytest --version".

Definition files_to_backup : list (string * string) :=
  [ ("pyproject.toml", "pyproject.poetry.toml");
    ("poetry.lock", "poetry.lock.bak") ].

Definition files_to_remove : list string :=
  [ "poetry.lock.bak"; "pyproject.poetry.toml"; ".venv" ].

Section Script.

Variable w : world.

Definition run_command (cmd : string) (check capture_output : bool)
  : M (option CompletedProcess) :=
  emit (Exec cmd) >>
  match w cmd with
  | Interrupted => raise KeyboardInterrupt
  | Completed rc out err =>
      if check && negb (rc =? 0)
      then
        print (CommandFailed cmd) >>
        print (CommandError (if capture_output then Some err else None)) >>
        ret None
      else
        ret (Some (mkCompleted rc
                     (if capture_output then Some out else None)
                     (if capture_output then Some err else None)))
  end.

Definition check_prerequisites : M bool :=
  print CheckingPrerequisites >>
  let* present := path_exists "pyproject.toml" in
  if negb present then
    print NoPyproject >> ret false
  else
    let* uv_result := run_command uv_version_cmd false true in
    if failed uv_result then
      print UvNotFound >> print UvInstallHint >> ret false
    else
      print (UvFound (stdout_of uv_result)) >>
      let* poetry_result := run_command poetry_version_cmd false true in
      (if negb (failed poetry_result)
       then print (PoetryFound (stdout_of poetry_result))
       else print PoetryNotFound) >>
      ret true.

(** The body of the loop of [backup_existing_files]. *)
Definition backup_file (pair : string * string) : M unit :=
  let '(original, backup) := pair in
  let* present := path_exists original in
  if present then
    copy2 original backup >> print (BackedUp original backup)
  else ret tt.

Definition backup_existing_files : M unit :=
  print CreatingBackups >>
  for_each files_to_backup backup_file >>
  print BackupsCreated.

Definition setup_uv_configuration : M bool :=
  print SettingUp >>
  let* present := path_exists "pyproject.uv.toml" in
  if present then
    copy2 "pyproject.uv.toml" "pyproject.toml" >>
    print CopiedUvConfig >>
    ret true
  else
    print UvConfigNotFound >> ret false.

Definition install_dependencies : M bool :=
  print Installing >>
  let* result := run_command uv_sync_cmd true false in
  if failed result then
    print InstallFailed >> ret false
  else
    print Installed >> ret true.

Definition setup_pre_commit : M bool :=
  print SettingUpHooks >>
  let* result := run_command pre_commit_cmd true false in
  if failed result then
    print HooksFailed >> ret false
  else
    print HooksInstalled >> ret true.

Definition verify_installation : M bool :=
  print Verifying >>
  let* result := run_command python_version_cmd true true in
  if failed result then
    print PythonNotWorking >> ret false
  else
    print (PythonVersion (stdout_of result)) >>
    let* result := run_command import_cmd true true in
    if failed result then
      print ImportFailed >> ret false
    else
      print ImportOk >>
      let* result := run_command pytest_version_cmd true true in
      (if failed result
       then print PytestNotAvailable
       else print (PytestVersion (stdout_of result))) >>
      print Verified >>
      ret true.

(** The body of the loop of [cleanup_poetry_files]. *)
Definition remove_path (file_path : string) : M unit :=
  let* present := path_exists file_path in
  if present then
    let* dir := path_is_dir file_path in
    if dir then
      rmtree file_path >> print (RemovedDirectory file_path)
    else
      unlink file_path >> print (RemovedFile file_path)
  else ret tt.

Definition cleanup_poetry_files (keep_backups : bool) : M unit :=
  if negb keep_backups then
    print CleaningUp >>
    for_each files_to_remove remove_path
  else
    print KeepingBackups.

Definition show_next_steps : M unit := print NextSteps.

(** The body of the [try] block of [main]. *)
Definition workflow (args : Args) : M unit :=
  backup_existing_files >>
  let* configured := setup_uv_configuration in
  if negb configured then sys_exit 1 else
  let* installed := install_dependencies in
  if negb installed then sys_exit 1 else
  setup_pre_commit >>
  let* verified := verify_installation in
  (if negb verified then print MayHaveIssues else ret tt) >>
  cleanup_poetry_files (negb (cleanup args)) >>
  show_next_steps.

Definition main (args : Args) : M unit :=
  print Banner >>
  print Rule >>
  let* ready := check_prerequisites in
  if negb ready then sys_exit 1 else
  let* migrated := path_exists "uv.lock" in
  if migrated && negb (force args) then
    print AlreadyExists >> print UseForce >> sys_exit 0
  else
    try_except (workflow args)
      (print Cancelled >> sys_exit 1)
      (fun what => print (MigrationFailed what) >> print RestoreHint >> sys_exit 1).

End Script.

(** ** Running the script *)

Definition start (m : gmap string node) : state := mkState m [].

Definition run (w : world) (args : Args) (m : gmap string node)
  : result unit * state :=
  main w args (start m).

(** The status the script hands to the operating system: 0 when [main]
    returns, the argument of [sys.exit] when it exits.  An exception that
    leaves [main] is not a status chosen by the script. *)
Definition exit_status (r : result unit) : option Z :=
  match r with
  | Ok _ => Some 0
  | Raise (SystemExit n) => Some n
  | Raise _ => None
  end.

Definition success (r : result unit) : Prop := exit_status r = Some 0.
Definition failure (r : result unit) : Prop := exit_status r <> Some 0.

(** ** What the world answers *)

Definition succeeds (w : world) (cmd : string) : bool :=
  match w cmd with
  | Completed rc _ _ => rc =? 0
  | Interrupted => false
  end.

Definition fails (w : world) (cmd : string) : bool :=
  match w cmd with
  | Completed rc _ _ => negb (rc =? 0)
  | Interrupted => false
  end.

Definition interrupted (w : world) (cmd : string) : bool :=
  match w cmd with
  | Completed _ _ _ => false
  | Interrupted => true
  end.

(** ** What is in the directory *)

Definition is_file (m : gmap string node) (p : string) : bool :=
  match m !! p with Some (File _) => true | _ => false end.

Definition is_dir (m : gmap string node) (p : string) : bool :=
  match m !! p with Some (Dir _) => true | _ => false end.

(** A copy of a file with text [c], made by [shutil.copy2] from [src] to
    [dst]: it is the file [dst], or the entry [src] of the directory [dst]. *)
Definition holds_copy (m : gmap string node) (dst src c : string) : Prop :=
  m !! dst = Some (File c) \/
  exists es, m !! dst = Some (Dir es) /\ entry_lookup src es = Some (File c).

(** ** Reading the log *)

(** The step of the workflow that writes an event. *)
Inductive step : Type :=
| Shell | Check | Backup | Setup | Install | Hooks | Verify | Cleanup
| Report | Main.

Definition step_eqb (a b : step) : bool :=
  match a, b with
  | Shell, Shell | Check, Check | Backup, Backup | Setup, Setup
  | Install, Install | Hooks, Hooks | Verify, Verify | Cleanup, Cleanup
  | Report, Report | Main, Main => true
  | _, _ => false
  end.

Definition origin (e : event) : step :=
  match e with
  | Print m =>
      match m with
      | CommandFailed _ | CommandError _ => Shell
      | CheckingPrerequisites | NoPyproject | UvNotFound | UvInstallHint
      | UvFound _ | PoetryFound _ | PoetryNotFound => Check
      | CreatingBackups | BackedUp _ _ | BackupsCreated => Backup
      | SettingUp | CopiedUvConfig | UvConfigNotFound => Setup
      | Installing | InstallFailed | Installed => Install
      | SettingUpHooks | HooksFailed | HooksInstalled => Hooks
      | Verifying | PythonNotWorking | PythonVersion _ | ImportFailed
      | ImportOk | PytestNotAvailable | PytestVersion _ | Verified => Verify
      | CleaningUp | RemovedDirectory _ | RemovedFile _ | KeepingBackups =>
          Cleanup
      | NextSteps => Report
      | Banner | Rule | AlreadyExists | UseForce | MayHaveIssues | Cancelled
      | MigrationFailed _ | RestoreHint => Main
      end
  | Exec cmd =>
      if String.eqb cmd uv_version_cmd || String.eqb cmd poetry_version_cmd
      then Check
      else if String.eqb cmd uv_sync_cmd then Install
      else if String.eqb cmd pre_commit_cmd then Hooks
      else if String.eqb cmd python_version_cmd || String.eqb cmd import_cmd
              || String.eqb cmd pytest_version_cmd
      then Verify
      else Shell
  | Copied src _ =>
      if String.eqb src "pyproject.uv.toml" then Setup else Backup
  | Unlinked _ | RemovedTree _ => Cleanup
  end.

(** An event written by step [s], or by [run_command] on its behalf. *)
Definition from (s : step) (e : event) : bool :=
  step_eqb (origin e) s || step_eqb (origin e) Shell.

(** The steps that change no file. *)
Definition quiet_step (s : step) : bool :=
  match s with
  | Backup | Setup | Cleanup => false
  | _ => true
  end.

(** The kinds of event the properties single out. *)
Definition is_deletion (e : event) : bool :=
  match e with
  | Unlinked _ | RemovedTree _ => true
  | _ => false
  end.

Definition overwrites_config (e : event) : bool :=
  match e with
  | Copied _ dst => String.eqb dst "pyproject.toml"
  | _ => false
  end.

Definition is_config_backup (e : event) : bool :=
  match e with
  | Copied src dst =>
      String.eqb src "pyproject.toml" && String.eqb dst "pyproject.poetry.toml"
  | _ => false
  end.

Definition printed (m : msg) (evs : list event) : Prop := In (Print m) evs.

Definition ran (cmd : string) (evs : list event) : Prop := In (Exec cmd) evs.

(** The directory after the changes of a log, from the directory before. *)
Definition apply_event (e : event) (m : gmap string node) : gmap string node :=
  let keep r := match r with Ok m' => m' | Raise _ => m end in
  match e with
  | Copied src dst => keep (fs_copy2 src dst m)
  | Unlinked p => keep (fs_unlink p m)
  | RemovedTree p => keep (fs_rmtree p m)
  | Print _ | Exec _ => m
  end.

Definition replay (evs : list event) (m : gmap string node) : gmap string node :=
  fold_left (fun acc e => apply_event e acc) evs m.

(** ** How a run ends, in the words of the specification

    The specification names the ways a run can end and the exit status of
    each.  [ending_of] decides the way from the directory, the options and
    the answers of the world, following the order of the steps; the state
    of the directory after the backup step is taken from the step itself. *)
Inductive ending : Type :=
| PrerequisiteFailure   (* marker file absent, or new tool not invocable *)
| ProbeInterrupted      (* interrupted while the prerequisites are checked *)
| AlreadyMigrated       (* uv.lock present without --force *)
| TargetAbsent          (* pyproject.uv.toml absent *)
| InstallFailure        (* the dependency-install command failed *)
| UserInterruption      (* interrupted inside the protected segment *)
| UncaughtException     (* exception inside the protected segment *)
| FullWorkflow.         (* ran to the final report *)

Definition verification_interrupted (w : world) : bool :=
  interrupted w python_version_cmd
  || negb (fails w python_version_cmd)
     && (interrupted w import_cmd
         || negb (fails w import_cmd) && interrupted w pytest_version_cmd).

Definition ending_of (w : world) (args : Args) (m : gmap string node) : ending :=
  if negb (bool_decide (is_Some (m !! "pyproject.toml"))) then
    PrerequisiteFailure
  else if interrupted w uv_version_cmd then ProbeInterrupted
  else if fails w uv_version_cmd then PrerequisiteFailure
  else if interrupted w poetry_version_cmd then ProbeInterrupted
  else if bool_decide (is_Some (m !! "uv.lock")) && negb (force args) then
    AlreadyMigrated
  else
    match backup_existing_files (start m) with
    | (Raise _, _) => UncaughtException
    | (Ok _, backed_up) =>
        match fs backed_up !! "pyproject.uv.toml" with
        | None => TargetAbsent
        | Some _ =>
            match fs_copy2 "pyproject.uv.toml" "pyproject.toml"
                    (fs backed_up) with
            | Raise _ => UncaughtException
            | Ok _ =>
                if interrupted w uv_sync_cmd then UserInterruption
                else if fails w uv_sync_cmd then InstallFailure
                else if interrupted w pre_commit_cmd then UserInterruption
                else if verification_interrupted w then UserInterruption
                else FullWorkflow
            end
        end
    end.

(** Exit codes of the specification: 0 on success or on the already-migrated
    no-op, 1 on every failure the script handles. *)
Definition status_of (e : ending) : option Z :=
  match e with
  | FullWorkflow | AlreadyMigrated => Some 0
  | PrerequisiteFailure | TargetAbsent | InstallFailure | UserInterruption
  | UncaughtException => Some 1
  | ProbeInterrupted => None
  end.

(** ** Sample runs

    Directories, options and worlds on which the script is run below. *)

(** A project managed by Poetry, with the UV configuration prepared. *)
Definition poetry_project : gmap string node :=
  <["pyproject.toml" := File "[tool.poetry]"]>
    (<["poetry.lock" := File "poetry-lock"]>
       (<["pyproject.uv.toml" := File "[project]"]> ∅)).

(** The same project after a migration, with leftovers of Poetry. *)
Definition migrated_project : gmap string node :=
  <["uv.lock" := File "uv-lock"]>
    (<[".venv" := Dir [("pyvenv.cfg", File "home = /usr/bin")]]>
       poetry_project).

Definition no_options : Args := mkArgs false false.
Definition with_cleanup : Args := mkArgs true false.
Definition with_force : Args := mkArgs false true.

(** Every tool is installed and works. *)
Definition tools_work : world := fun _ => Completed 0 "1.0" "no error".

(** The world [w], except that command [cmd] answers [p]. *)
Definition except (w : world) (cmd : string) (p : proc) : world :=
  fun c => if String.eqb c cmd then p else w c.

Definition command_not_found : proc := Completed 127 "no output" "not found".

(** * Properties *)

(** ** Tactics for running the monad *)

Ltac unfold_monad :=
  unfold print, sys_exit, copy2, unlink, rmtree in *;
  unfold bind, emit, raise, ret, path_exists, path_is_dir, mutate, failed,
    stdout_of in *.

(** Case analysis on every answer of the world that the goal inspects. *)
Ltac split_world w :=
  repeat (cbn;
    match goal with
    | |- context [match w ?c with _ => _ end] =>
        destruct (w c) as [? ? ?|] eqn:?
    | |- context [Z.eqb ?x 0] => destruct (Z.eqb x 0) eqn:?
    end).

Ltac close_spec :=
  cbn; rewrite <- ?app_assoc; cbn;
  repeat match goal with
  | |- exists _, _ => eexists
  | |- _ /\ _ => split
  end; try reflexivity; try congruence.

(** ** The steps that only run commands *)

Section Commands.

Variable w : world.

Lemma check_prerequisites_spec f l :
  exists r evs,
    check_prerequisites w (mkState f l) = (r, mkState f (l ++ evs)) /\
    forallb (from Check) evs = true /\
    r = (if bool_decide (is_Some (f !! "pyproject.toml")) then
           if interrupted w uv_version_cmd then Raise KeyboardInterrupt
           else if fails w uv_version_cmd then Ok false
           else if interrupted w poetry_version_cmd then Raise KeyboardInterrupt
           else Ok true
         else Ok false).
Proof.
  unfold check_prerequisites, run_command, interrupted, fails; unfold_monad.
  cbn. destruct (bool_decide _); split_world w; close_spec.
Qed.

Lemma install_dependencies_spec f l :
  exists r evs,
    install_dependencies w (mkState f l) = (r, mkState f (l ++ evs)) /\
    forallb (from Install) evs = true /\
    existsb (fun e => match e with
                      | Exec c => String.eqb c uv_sync_cmd
                      | _ => false
                      end) evs = true /\
    r = (if interrupted w uv_sync_cmd then Raise KeyboardInterrupt
         else Ok (negb (fails w uv_sync_cmd))).
Proof.
  unfold install_dependencies, run_command, interrupted, fails; unfold_monad.
  split_world w; close_spec.
Qed.

Lemma setup_pre_commit_spec f l :
  exists r evs,
    setup_pre_commit w (mkState f l) = (r, mkState f (l ++ evs)) /\
    forallb (from Hooks) evs = true /\
    r = (if interrupted w pre_commit_cmd then Raise KeyboardInterrupt
         else Ok (negb (fails w pre_commit_cmd))).
Proof.
  unfold setup_pre_commit, run_command, interrupted, fails; unfold_monad.
  split_world w; close_spec.
Qed.

Lemma verify_installation_spec f l :
  exists r evs,
    verify_installation w (mkState f l) = (r, mkState f (l ++ evs)) /\
    forallb (from Verify) evs = true /\
    r = (if interrupted w python_version_cmd then Raise KeyboardInterrupt
         else if fails w python_version_cmd then Ok false
         else if interrupted w import_cmd then Raise KeyboardInterrupt
         else if fails w import_cmd then Ok false
         else if interrupted w pytest_version_cmd then Raise KeyboardInterrupt
         else Ok true).
Proof.
  unfold verify_installation, run_command, interrupted, fails; unfold_monad.
  split_world w; close_spec.
Qed.

End Commands.

(** ** The file operations *)

Lemma entry_lookup_put name x es :
  entry_lookup name (entry_put name x es) = Some x.
Proof.
  induction es as [|[n y] es IH]; cbn.
  - by rewrite String.eqb_refl.
  - destruct (String.eqb n name) eqn:E; cbn; rewrite E; done.
Qed.

Lemma fs_copy2_raise src dst f e :
  fs_copy2 src dst f = Raise e -> exists what, e = Exception what.
Proof.
  unfold fs_copy2.
  destruct (f !! src) as [[c|es]|]; [|intros [= <-]; eauto..].
  destruct (f !! dst) as [[c'|es]|]; try discriminate.
  destruct (entry_lookup src es) as [[c'|es']|]; try discriminate.
  intros [= <-]; eauto.
Qed.

Lemma fs_copy2_other src dst f f' p :
  fs_copy2 src dst f = Ok f' -> p <> dst -> f' !! p = f !! p.
Proof.
  unfold fs_copy2. intros H Hp.
  destruct (f !! src) as [[c|es]|]; try discriminate.
  destruct (f !! dst) as [[c'|es]|].
  - injection H as <-. by rewrite lookup_insert_ne.
  - destruct (entry_lookup src es) as [[c'|es']|]; try discriminate;
      injection H as <-; by rewrite lookup_insert_ne.
  - injection H as <-. by rewrite lookup_insert_ne.
Qed.

(** A copy that succeeds leaves a copy of the source's text. *)
Lemma fs_copy2_holds src dst f f' :
  fs_copy2 src dst f = Ok f' ->
  exists c, f !! src = Some (File c) /\
            holds_copy f' dst src c /\
            (is_dir f dst = false -> f' !! dst = Some (File c)).
Proof.
  unfold fs_copy2, holds_copy, is_dir. intros H.
  destruct (f !! src) as [[c|es]|]; try discriminate.
  exists c. split; [done|].
  destruct (f !! dst) as [[c'|es]|].
  - injection H as <-. rewrite lookup_insert_eq. eauto.
  - destruct (entry_lookup src es) as [[c'|es']|] eqn:E; try discriminate;
      injection H as <-; rewrite lookup_insert_eq;
      (split; [right; eexists; split; [done|apply entry_lookup_put]
              |discriminate]).
  - injection H as <-. rewrite lookup_insert_eq. eauto.
Qed.

(** Where the destination is no directory, the copy succeeds and is the
    destination. *)
Lemma fs_copy2_file src dst f c :
  f !! src = Some (File c) -> is_dir f dst = false ->
  fs_copy2 src dst f = Ok (<[dst := File c]> f).
Proof.
  unfold fs_copy2, is_dir. intros -> H.
  by destruct (f !! dst) as [[c'|es]|].
Qed.

(** ** The steps that change files *)

Lemma backup_file_spec original backup f l :
  backup_file (original, backup) (mkState f l) =
  match f !! original with
  | None => (Ok tt, mkState f l)
  | Some _ =>
      match fs_copy2 original backup f with
      | Ok f' =>
          (Ok tt,
           mkState f' (l ++ [Copied original backup;
                             Print (BackedUp original backup)]))
      | Raise e => (Raise e, mkState f l)
      end
  end.
Proof.
  unfold backup_file; unfold_monad; cbn.
  destruct (f !! original) as [n|]; cbn; [|done].
  destruct (fs_copy2 original backup f); cbn; [|done].
  by rewrite <- app_assoc.
Qed.

Lemma remove_path_spec p f l :
  exists evs,
    remove_path p (mkState f l) = (Ok tt, mkState (delete p f) (l ++ evs)) /\
    forallb (from Cleanup) evs = true /\
    replay evs f = delete p f.
Proof.
  unfold remove_path; unfold_monad; unfold fs_unlink, fs_rmtree.
  destruct (f !! p) as [[c|es]|] eqn:E.
  - exists [Unlinked p; Print (RemovedFile p)].
    repeat (cbn; rewrite !E). cbn.
    unfold fs_unlink. by rewrite <- app_assoc, E.
  - exists [RemovedTree p; Print (RemovedDirectory p)].
    repeat (cbn; rewrite !E). cbn.
    unfold fs_rmtree. by rewrite <- app_assoc, E.
  - exists []. repeat (cbn; rewrite !E). cbn.
    by rewrite app_nil_r, delete_id.
Qed.

Lemma holds_copy_ext f f' dst src c :
  f' !! dst = f !! dst -> holds_copy f dst src c -> holds_copy f' dst src c.
Proof. unfold holds_copy. by intros ->. Qed.

Lemma is_dir_ext (f f' : gmap string node) p :
  f' !! p = f !! p -> is_dir f' p = is_dir f p.
Proof. unfold is_dir. by intros ->. Qed.

(** One turn of the backup loop: nothing but [backup] changes; when the
    turn returns, a regular file [original] has its copy. *)
Lemma backup_file_facts original backup f l :
  String.eqb original "pyproject.uv.toml" = false ->
  String.eqb backup "pyproject.toml" = false ->
  exists r f' evs,
    backup_file (original, backup) (mkState f l) = (r, mkState f' (l ++ evs)) /\
    forallb (from Backup) evs = true /\
    existsb overwrites_config evs = false /\
    replay evs f = f' /\
    (forall p, p <> backup -> f' !! p = f !! p) /\
    match r with
    | Ok _ =>
        is_dir f original = false /\
        forall c, f !! original = Some (File c) ->
          evs = [Copied original backup; Print (BackedUp original backup)] /\
          holds_copy f' backup original c /\
          (is_dir f backup = false -> f' !! backup = Some (File c))
    | Raise e => exists what, e = Exception what
    end.
Proof.
  intros Ho Hb. rewrite backup_file_spec.
  destruct (f !! original) as [n|] eqn:E.
  - destruct (fs_copy2 original backup f) as [f'|e] eqn:C.
    + exists (Ok tt), f', [Copied original backup; Print (BackedUp original backup)].
      destruct (fs_copy2_holds _ _ _ _ C) as (c & Hc & Hh & Hd).
      split; [done|].
      split; [cbn [forallb]; unfold from, origin; by rewrite Ho|].
      split; [cbn [existsb overwrites_config]; by rewrite Hb|].
      split; [by cbn; rewrite C|].
      split; [intros p Hp; eapply fs_copy2_other; eauto|].
      split; [unfold is_dir; by rewrite Hc|].
      intros c' Hc'. by assert (c' = c) as -> by congruence.
    + exists (Raise e), f, []. rewrite app_nil_r.
      repeat (split; [done|]). eapply fs_copy2_raise; eauto.
  - exists (Ok tt), f, []. rewrite app_nil_r.
    repeat (split; [done|]).
    split; [unfold is_dir; by rewrite E|]. intros c Hc. congruence.
Qed.

Lemma setup_uv_configuration_spec f l :
  setup_uv_configuration (mkState f l) =
  match f !! "pyproject.uv.toml" with
  | None =>
      (Ok false, mkState f (l ++ [Print SettingUp; Print UvConfigNotFound]))
  | Some _ =>
      match fs_copy2 "pyproject.uv.toml" "pyproject.toml" f with
      | Ok f' =>
          (Ok true,
           mkState f' (l ++ [Print SettingUp;
                             Copied "pyproject.uv.toml" "pyproject.toml";
                             Print CopiedUvConfig]))
      | Raise e => (Raise e, mkState f (l ++ [Print SettingUp]))
      end
  end.
Proof.
  unfold setup_uv_configuration; unfold_monad; cbn.
  destruct (f !! "pyproject.uv.toml") as [n|]; cbn.
  - destruct (fs_copy2 _ _ f); cbn; [|done]. by rewrite <- !app_assoc.
  - by rewrite <- !app_assoc.
Qed.

Lemma replay_app evs1 evs2 f :
  replay (evs1 ++ evs2) f = replay evs2 (replay evs1 f).
Proof. unfold replay. apply fold_left_app. Qed.

Lemma backup_existing_files_spec f l :
  exists r f' evs,
    backup_existing_files (mkState f l) = (r, mkState f' (l ++ evs)) /\
    forallb (from Backup) evs = true /\
    existsb overwrites_config evs = false /\
    replay evs f = f' /\
    (forall p, p <> "pyproject.poetry.toml" -> p <> "poetry.lock.bak" ->
               f' !! p = f !! p) /\
    match r with
    | Ok _ =>
        is_dir f "pyproject.toml" = false /\
        is_dir f "poetry.lock" = false /\
        (forall c, f !! "pyproject.toml" = Some (File c) ->
           existsb is_config_backup evs = true /\
           holds_copy f' "pyproject.poetry.toml" "pyproject.toml" c /\
           (is_dir f "pyproject.poetry.toml" = false ->
            f' !! "pyproject.poetry.toml" = Some (File c))) /\
        (forall c, f !! "poetry.lock" = Some (File c) ->
           holds_copy f' "poetry.lock.bak" "poetry.lock" c /\
           (is_dir f "poetry.lock.bak" = false ->
            f' !! "poetry.lock.bak" = Some (File c)))
    | Raise e => exists what, e = Exception what
    end.
Proof.
  unfold backup_existing_files, files_to_backup. cbn [for_each].
  unfold bind, print, emit, ret; cbn -[backup_file].
  destruct (backup_file_facts "pyproject.toml" "pyproject.poetry.toml" f
              (l ++ [Print CreatingBackups]) eq_refl eq_refl)
    as (r1 & f1 & evs1 & E1 & Ha1 & Ho1 & Hr1 & Hf1 & H1).
  rewrite E1; clear E1.
  destruct r1 as [[]|e1]; cbn -[backup_file].
  2:{ exists (Raise e1), f1, (Print CreatingBackups :: evs1).
      rewrite <- app_assoc. cbn -[from]. rewrite Ha1, Ho1.
      repeat (split; [done|]). split; [|done].
      intros p Hp _. by apply Hf1. }
  destruct (backup_file_facts "poetry.lock" "poetry.lock.bak" f1
              ((l ++ [Print CreatingBackups]) ++ evs1) eq_refl eq_refl)
    as (r2 & f2 & evs2 & E2 & Ha2 & Ho2 & Hr2 & Hf2 & H2).
  rewrite E2; clear E2.
  assert (Hf12 : forall p, p <> "pyproject.poetry.toml" ->
                           p <> "poetry.lock.bak" -> f2 !! p = f !! p).
  { intros p Hp1 Hp2. rewrite Hf2, Hf1; done. }
  destruct r2 as [[]|e2]; cbn.
  2:{ exists (Raise e2), f2, (Print CreatingBackups :: evs1 ++ evs2).
      rewrite <- !app_assoc. cbn -[from].
      rewrite forallb_app, existsb_app, Ha1, Ha2, Ho1, Ho2, replay_app, Hr1.
      repeat (split; [done|]). done. }
  exists (Ok tt), f2,
    (Print CreatingBackups :: evs1 ++ evs2 ++ [Print BackupsCreated]).
  cbn -[from]. rewrite <- !app_assoc. cbn -[from].
  rewrite !forallb_app, !existsb_app, Ha1, Ha2, Ho1, Ho2, !replay_app, Hr1, Hr2.
  repeat (split; [done|]).
  destruct H1 as [Hd1 H1], H2 as [Hd2 H2].
  split; [done|].
  split; [by rewrite <- (is_dir_ext f f1) by (by apply Hf1)|].
  split.
  - intros c Hc. destruct (H1 c Hc) as (-> & Hh & Hd).
    split; [done|]. split.
    + eapply holds_copy_ext; [|exact Hh]. by apply Hf2.
    + intros Hnd. rewrite Hf2 by done. by apply Hd.
  - intros c Hc. rewrite <- Hf1 in Hc by done.
    destruct (H2 c Hc) as (_ & Hh & Hd).
    split; [done|]. intros Hnd. apply Hd.
    by rewrite (is_dir_ext f f1) by (by apply Hf1).
Qed.

(** Cleanup on request removes the three paths, whatever they are. *)
Lemma cleanup_poetry_files_spec keep f l :
  exists evs,
    cleanup_poetry_files keep (mkState f l) =
      (Ok tt,
       mkState (if keep then f
                else delete ".venv"
                       (delete "pyproject.poetry.toml"
                          (delete "poetry.lock.bak" f)))
               (l ++ evs)) /\
    forallb (from Cleanup) evs = true /\
    (if keep then evs = [Print KeepingBackups]
     else exists evs', evs = Print CleaningUp :: evs') /\
    replay evs f = (if keep then f
                    else delete ".venv"
                           (delete "pyproject.poetry.toml"
                              (delete "poetry.lock.bak" f))).
Proof.
  unfold cleanup_poetry_files, files_to_remove.
  destruct keep; cbn -[remove_path].
  { exists [Print KeepingBackups]. done. }
  unfold bind, print, emit, ret; cbn -[remove_path].
  destruct (remove_path_spec "poetry.lock.bak" f (l ++ [Print CleaningUp]))
    as (evs1 & E1 & Ha1 & Hr1).
  rewrite E1; clear E1; cbn -[remove_path].
  destruct (remove_path_spec "pyproject.poetry.toml"
              (delete "poetry.lock.bak" f)
              ((l ++ [Print CleaningUp]) ++ evs1))
    as (evs2 & E2 & Ha2 & Hr2).
  rewrite E2; clear E2; cbn -[remove_path].
  destruct (remove_path_spec ".venv"
              (delete "pyproject.poetry.toml" (delete "poetry.lock.bak" f))
              (((l ++ [Print CleaningUp]) ++ evs1) ++ evs2))
    as (evs3 & E3 & Ha3 & Hr3).
  rewrite E3; clear E3; cbn -[remove_path].
  exists (Print CleaningUp :: evs1 ++ evs2 ++ evs3).
  rewrite <- !app_assoc. cbn -[from].
  rewrite !forallb_app, Ha1, Ha2, Ha3, !replay_app, Hr1, Hr2, Hr3.
  repeat (split; [done|]). split; [by eexists|done].
Qed.

(** ** The log is written, never read *)

Lemma backup_existing_files_frame f l :
  backup_existing_files (mkState f l) =
  (fst (backup_existing_files (start f)),
   mkState (fs (snd (backup_existing_files (start f))))
           (l ++ log (snd (backup_existing_files (start f))))).
Proof.
  unfold backup_existing_files, files_to_backup, start. cbn [for_each].
  unfold bind, print, emit, ret; cbn -[backup_file].
  rewrite !backup_file_spec.
  destruct (f !! "pyproject.toml") as [n|]; cbn -[backup_file].
  - destruct (fs_copy2 "pyproject.toml" _ f) as [f1|e]; cbn -[backup_file];
      [|done].
    rewrite !backup_file_spec.
    destruct (f1 !! "poetry.lock") as [n'|]; cbn.
    + destruct (fs_copy2 "poetry.lock" _ f1) as [f2|e]; cbn;
        by rewrite <- ?app_assoc.
    + by rewrite <- ?app_assoc.
  - rewrite !backup_file_spec.
    destruct (f !! "poetry.lock") as [n'|]; cbn.
    + destruct (fs_copy2 "poetry.lock" _ f) as [f2|e]; cbn;
        by rewrite <- ?app_assoc.
    + by rewrite <- ?app_assoc.
Qed.

(** The backup step from any log, with everything known about it. *)
Lemma backup_existing_files_step f l :
  exists r f' evs,
    backup_existing_files (start f) = (r, mkState f' evs) /\
    backup_existing_files (mkState f l) = (r, mkState f' (l ++ evs)) /\
    forallb (from Backup) evs = true /\
    existsb overwrites_config evs = false /\
    replay evs f = f' /\
    (forall p, p <> "pyproject.poetry.toml" -> p <> "poetry.lock.bak" ->
               f' !! p = f !! p) /\
    match r with
    | Ok _ =>
        is_dir f "pyproject.toml" = false /\
        is_dir f "poetry.lock" = false /\
        (forall c, f !! "pyproject.toml" = Some (File c) ->
           existsb is_config_backup evs = true /\
           holds_copy f' "pyproject.poetry.toml" "pyproject.toml" c /\
           (is_dir f "pyproject.poetry.toml" = false ->
            f' !! "pyproject.poetry.toml" = Some (File c))) /\
        (forall c, f !! "poetry.lock" = Some (File c) ->
           holds_copy f' "poetry.lock.bak" "poetry.lock" c /\
           (is_dir f "poetry.lock.bak" = false ->
            f' !! "poetry.lock.bak" = Some (File c)))
    | Raise e => exists what, e = Exception what
    end.
Proof.
  destruct (backup_existing_files_spec f []) as (r & f' & evs & E & H).
  exists r, f', evs. change ([] ++ evs) with evs in E.
  split; [exact E|]. split; [|done].
  rewrite backup_existing_files_frame. unfold start. by rewrite E.
Qed.

#[global] Arguments check_prerequisites : simpl never.
#[global] Arguments backup_existing_files : simpl never.
#[global] Arguments setup_uv_configuration : simpl never.
#[global] Arguments install_dependencies : simpl never.
#[global] Arguments setup_pre_commit : simpl never.
#[global] Arguments verify_installation : simpl never.
#[global] Arguments cleanup_poetry_files : simpl never.
#[global] Arguments workflow : simpl never.
#[global] Arguments fs_copy2 : simpl never.

(** ** Running [main] step by step

    A run is analysed through the equation [main w args (start m) = (r, st)]
    as a premise of the goal.  [run_main] replaces each step of the script by
    its specification and splits on each test, in the order in which the
    script evaluates them; every path ends with [r] and [st] known. *)

Ltac unfold_main :=
  unfold run, main, workflow, show_next_steps, try_except, start;
  unfold print, sys_exit; unfold bind, emit, raise, ret, path_exists;
  cbn.

(** The term the evaluation of [t] waits for. *)
Ltac head t :=
  lazymatch t with
  | (if ?b then _ else _) _ => head b
  | (if ?b then _ else _) => head b
  | match ?x with Ok _ => _ | Raise _ => _ end => head x
  | match ?x with Some _ => _ | None => _ end => head x
  | let (_, _) := ?x in _ => head x
  | match ?e with
    | KeyboardInterrupt => _ | SystemExit _ => _ | Exception _ => _
    end => head e
  | negb ?b => head b
  | andb ?a _ => head a
  | _ => t
  end.

Ltac step w :=
  lazymatch goal with
  | |- ?X = _ -> _ =>
      let h := head X in
      lazymatch h with
      | check_prerequisites w (mkState ?f ?l) =>
          let E := fresh "E" in
          destruct (check_prerequisites_spec w f l) as (? & ? & E & ? & ?);
          rewrite E; clear E; subst
      | backup_existing_files (mkState ?f ?l) =>
          let E := fresh "E" in
          destruct (backup_existing_files_step f l)
            as (? & ? & ? & ? & E & ? & ? & ? & ? & ?);
          rewrite E; clear E
      | setup_uv_configuration (mkState ?f ?l) =>
          rewrite (setup_uv_configuration_spec f l)
      | install_dependencies w (mkState ?f ?l) =>
          let E := fresh "E" in
          destruct (install_dependencies_spec w f l)
            as (? & ? & E & ? & ? & ?);
          rewrite E; clear E; subst
      | setup_pre_commit w (mkState ?f ?l) =>
          let E := fresh "E" in
          destruct (setup_pre_commit_spec w f l) as (? & ? & E & ? & ?);
          rewrite E; clear E; subst
      | verify_installation w (mkState ?f ?l) =>
          let E := fresh "E" in
          destruct (verify_installation_spec w f l) as (? & ? & E & ? & ?);
          rewrite E; clear E; subst
      | cleanup_poetry_files ?k (mkState ?f ?l) =>
          let E := fresh "E" in
          destruct (cleanup_poetry_files_spec k f l) as (? & E & ? & ? & ?);
          rewrite E; clear E
      | (_, _) => fail
      | _ =>
          first
            [ match goal with
              | H : exists what, h = Exception what |- _ =>
                  destruct H as [? ->]
              | H : fs_copy2 _ _ _ = Raise h |- _ =>
                  let H' := fresh in
                  destruct (fs_copy2_raise _ _ _ _ H) as [? H'];
                  rewrite H' in *; clear H'
              end
            | is_var h; destruct h as [[]|?]
            | destruct h eqn:? ]
      end
  end.

(** Rewrite with what the path has established. *)
Ltac use_eqs :=
  repeat (cbn;
    match goal with
    | H : ?x = _ |- context [?x] => rewrite H
    end).

(** [tac] brings in what the theorem at hand knows, after each step. *)
Ltac run_main_with w tac :=
  unfold_main; repeat (use_eqs; cbn; step w; tac; cbn); use_eqs; cbn.

Ltac run_main w := run_main_with w idtac.

(** ** Facts about the world and the log *)

Lemma fails_not_interrupted w cmd :
  fails w cmd = true -> interrupted w cmd = false.
Proof. unfold fails, interrupted. by destruct (w cmd). Qed.

Lemma succeeds_completes w cmd :
  succeeds w cmd = true -> interrupted w cmd = false /\ fails w cmd = false.
Proof.
  unfold succeeds, fails, interrupted.
  destruct (w cmd) as [rc ? ?|]; [|done]. by intros ->.
Qed.

Lemma not_fails_succeeds w cmd :
  interrupted w cmd = false -> fails w cmd = false -> succeeds w cmd = true.
Proof.
  unfold succeeds, fails, interrupted.
  destruct (w cmd) as [rc ? ?|]; [|done]. by destruct (rc =? 0).
Qed.

Lemma in_from s e evs :
  forallb (from s) evs = true -> In e evs -> from s e = true.
Proof. intros H Hin. by apply (proj1 (forallb_forall _ _) H). Qed.

Lemma forallb_weaken {A} (p q : A -> bool) l :
  (forall x, p x = true -> q x = true) ->
  forallb p l = true -> forallb q l = true.
Proof.
  intros Hpq. rewrite !forallb_forall. intros H x Hx. by apply Hpq, H.
Qed.

Lemma existsb_false {A} (p : A -> bool) l :
  existsb p l = false <-> forallb (fun x => negb (p x)) l = true.
Proof.
  induction l as [|x l IH]; cbn; [done|].
  rewrite orb_false_iff, andb_true_iff, negb_true_iff. by rewrite IH.
Qed.

Lemma from_no_mutation s evs :
  quiet_step s = true -> forallb (from s) evs = true ->
  forallb (fun e => negb (is_mutation e)) evs = true.
Proof.
  intros Hs. apply forallb_weaken. intros e. unfold from.
  destruct e as [m|cmd|src dst|p|p]; cbn; try done;
    repeat case_match; destruct s; done.
Qed.

Lemma from_no_deletion s evs :
  step_eqb s Cleanup = false -> forallb (from s) evs = true ->
  forallb (fun e => negb (is_deletion e)) evs = true.
Proof.
  intros Hs. apply forallb_weaken. intros e. unfold from.
  destruct e as [m|cmd|src dst|p|p]; cbn; try done; destruct s; done.
Qed.

Lemma from_no_overwrite s evs :
  step_eqb s Backup || step_eqb s Setup = false ->
  forallb (from s) evs = true ->
  forallb (fun e => negb (overwrites_config e)) evs = true.
Proof.
  intros Hs. apply forallb_weaken. intros e. unfold from.
  destruct e as [m|cmd|src dst|p|p]; cbn; try done.
  repeat case_match; destruct s; done.
Qed.

Lemma replay_quiet evs f :
  forallb (fun e => negb (is_mutation e)) evs = true -> replay evs f = f.
Proof.
  induction evs as [|e evs IH]; cbn; [done|].
  rewrite andb_true_iff. intros [He H].
  destruct e; try done; by apply IH.
Qed.

(** ** The exit status of every run *)

Lemma exit_status_classified w args m :
  exit_status (fst (run w args m)) = status_of (ending_of w args m).
Proof.
  destruct (run w args m) as [r st] eqn:E. revert E.
  run_main w.
  all: intros [= <- <-]; unfold ending_of, verification_interrupted, start in *.
  all: use_eqs.
  all: reflexivity.
Qed.

(** Prove that no event of a log is of some kind, from the steps that wrote
    its parts. *)
Ltac solve_forallb :=
  repeat (cbn [forallb app negb is_mutation is_deletion overwrites_config];
          rewrite ?forallb_app);
  rewrite ?andb_true_iff; repeat split;
  first
    [ reflexivity
    | eapply from_no_mutation; [|eassumption]; reflexivity
    | eapply from_no_deletion; [|eassumption]; reflexivity
    | eapply from_no_overwrite; [|eassumption]; reflexivity
    | by apply existsb_false ].

(** Decide whether an event is in a log, from the steps that wrote its
    parts; the places where it can be stay as cases. *)
Ltac in_log H :=
  repeat
    match type of H with
    | In _ (_ ++ _) => apply in_app_or in H; destruct H as [H|H]
    | In _ (_ :: _) => destruct H as [H|H]; [try discriminate H|]
    | In _ [] => destruct H
    | In ?e ?x =>
        is_var x;
        match goal with
        | Ha : forallb (from ?s) x = true |- _ =>
            apply (in_from s e x Ha) in H; vm_compute in H; discriminate H
        end
    end.

(** ** After the backup step *)

(** The backup step leaves every path but the two backups as it was. *)
Ltac untouched p :=
  try match goal with
      | H : forall q, q <> "pyproject.poetry.toml" -> q <> "poetry.lock.bak" ->
                      ?f !! q = _ |- context [?f !! p] =>
          rewrite (H p) by done
      end.

Lemma file_of_present (m : gmap string node) p :
  bool_decide (is_Some (m !! p)) = true -> is_dir m p = false ->
  exists c, m !! p = Some (File c).
Proof.
  unfold is_dir. intros H%bool_decide_eq_true_1 Hd.
  destruct H as [[c|es] H]; rewrite H in *; [eauto|done].
Qed.

(** The swap, after a backup that left the two configuration files as
    they were. *)
Lemma swap_after_backup (m f1 a : gmap string node) c0 :
  (forall q, q <> "pyproject.poetry.toml" -> q <> "poetry.lock.bak" ->
             f1 !! q = m !! q) ->
  m !! "pyproject.toml" = Some (File c0) ->
  fs_copy2 "pyproject.uv.toml" "pyproject.toml" f1 = Ok a ->
  exists cu, m !! "pyproject.uv.toml" = Some (File cu) /\
             a = <["pyproject.toml" := File cu]> f1.
Proof.
  intros Hf Hc. unfold fs_copy2. rewrite !Hf by done. rewrite Hc.
  destruct (m !! "pyproject.uv.toml") as [[cu|es]|]; try done.
  intros [= <-]. eauto.
Qed.

(** With both originals regular files and neither backup path a directory,
    the backup step is two plain copies. *)
Lemma backup_existing_files_ok f l c0 cl :
  f !! "pyproject.toml" = Some (File c0) ->
  f !! "poetry.lock" = Some (File cl) ->
  is_dir f "pyproject.poetry.toml" = false ->
  is_dir f "poetry.lock.bak" = false ->
  backup_existing_files (mkState f l) =
  (Ok tt,
   mkState (<["poetry.lock.bak" := File cl]>
              (<["pyproject.poetry.toml" := File c0]> f))
           (l ++ [Print CreatingBackups;
                  Copied "pyproject.toml" "pyproject.poetry.toml";
                  Print (BackedUp "pyproject.toml" "pyproject.poetry.toml");
                  Copied "poetry.lock" "poetry.lock.bak";
                  Print (BackedUp "poetry.lock" "poetry.lock.bak");
                  Print BackupsCreated])).
Proof.
  intros Hpt Hpl Hd1 Hd2.
  unfold backup_existing_files, files_to_backup. cbn [for_each].
  unfold bind, print, emit, ret; cbn -[backup_file].
  rewrite backup_file_spec, Hpt, (fs_copy2_file _ _ _ _ Hpt Hd1).
  cbn -[backup_file].
  rewrite backup_file_spec, lookup_insert_ne, Hpl by done.
  rewrite (fs_copy2_file _ _ _ cl).
  - cbn. by rewrite <- !app_assoc.
  - by rewrite lookup_insert_ne.
  - unfold is_dir in *. by rewrite lookup_insert_ne.
Qed.

(** A line that the log ends with is printed. *)
Ltac show_printed :=
  unfold printed; cbn [In]; rewrite ?in_app_iff; cbn [In];
  solve [repeat first [left; reflexivity | right]].

(** Find an event in a log that is known up to the parts the steps wrote. *)
Ltac find_in :=
  lazymatch goal with
  | |- In _ (_ :: _) => first [left; reflexivity | right; find_in]
  | |- In _ (_ ++ _) => apply in_or_app; first [left; find_in | right; find_in]
  end.

(** ** The place of the swap in the log *)

Lemma replay_cons e evs f : replay (e :: evs) f = replay evs (apply_event e f).
Proof. reflexivity. Qed.

(** The backup step ends with its closing line. *)
Lemma backups_created f f' evs :
  backup_existing_files (start f) = (Ok tt, mkState f' evs) ->
  In (Print BackupsCreated) evs.
Proof.
  unfold backup_existing_files, files_to_backup, start. cbn [for_each].
  unfold bind, print, emit, ret; cbn -[backup_file].
  rewrite !backup_file_spec.
  destruct (f !! "pyproject.toml") as [n|]; cbn -[backup_file].
  - destruct (fs_copy2 "pyproject.toml" _ f) as [f1|e]; cbn -[backup_file];
      [|done].
    rewrite !backup_file_spec.
    destruct (f1 !! "poetry.lock") as [n'|]; cbn.
    + destruct (fs_copy2 "poetry.lock" _ f1) as [f2|e]; cbn; [|done].
      intros [= <- <-]. find_in.
    + intros [= <- <-]. find_in.
  - rewrite !backup_file_spec.
    destruct (f !! "poetry.lock") as [n'|]; cbn.
    + destruct (fs_copy2 "poetry.lock" _ f) as [f2|e]; cbn; [|done].
      intros [= <- <-]. find_in.
    + intros [= <- <-]. find_in.
Qed.

(** Where a log splits at an event that overwrites the configuration. *)
Lemma split_at_overwrite A e0 B pre e post :
  existsb overwrites_config A = false ->
  existsb overwrites_config B = false ->
  A ++ e0 :: B = pre ++ e :: post -> overwrites_config e = true ->
  pre = A /\ e = e0.
Proof.
  intros HA HB. revert pre HA.
  induction A as [|a A IH]; intros pre HA Hs He.
  - destruct pre as [|x pre]; cbn in Hs; injection Hs as -> Hs; [done|].
    rewrite Hs, existsb_app in HB. cbn in HB.
    by rewrite He, orb_true_r in HB.
  - cbn in HA. apply orb_false_iff in HA as [Ha HA].
    destruct pre as [|x pre]; cbn in Hs; injection Hs as -> Hs.
    + congruence.
    + destruct (IH pre HA Hs He) as [-> ->]. done.
Qed.

Lemma no_overwrite_in L pre e post :
  existsb overwrites_config L = false ->
  L = pre ++ e :: post -> overwrites_config e = true -> False.
Proof.
  intros HL -> He. rewrite existsb_app in HL. cbn in HL.
  by rewrite He, orb_true_r in HL.
Qed.

Lemma overwrite_is_the_swap x0 x2 tail pre e post :
  forallb (from Check) x0 = true ->
  existsb overwrites_config x2 = false ->
  existsb overwrites_config tail = false ->
  Print Banner :: Print Rule :: x0 ++ x2 ++
    Print SettingUp :: Copied "pyproject.uv.toml" "pyproject.toml" :: tail
  = pre ++ e :: post ->
  overwrites_config e = true ->
  pre = Print Banner :: Print Rule :: x0 ++ x2 ++ [Print SettingUp] /\
  e = Copied "pyproject.uv.toml" "pyproject.toml".
Proof.
  intros H0 H2 Ht Hs He.
  eapply (split_at_overwrite
            (Print Banner :: Print Rule :: x0 ++ x2 ++ [Print SettingUp]));
    [| exact Ht | | exact He].
  - cbn [existsb overwrites_config orb]. rewrite !existsb_app, H2.
    cbn [existsb overwrites_config orb]. rewrite !orb_false_r.
    apply existsb_false. eapply from_no_overwrite; [|exact H0]. reflexivity.
  - rewrite <- Hs. cbn [app]. rewrite <- !app_assoc. reflexivity.
Qed.

(** ** The workflow *)

(** C2.  The exit status is 0 exactly when the run goes through the full
    workflow or stops as already migrated, and 1 exactly on a prerequisite
    failure, an absent target configuration, a failed dependency install,
    or a user interruption or an exception inside the protected segment.
    A user interruption while the prerequisites are probed is outside the
    protected segment: [KeyboardInterrupt] leaves [main], and the script
    sets no status, neither 0 nor 1. *)
Theorem exit_status_by_ending w args m :
  let status := exit_status (fst (run w args m)) in
  let ending := ending_of w args m in
  (status = Some 0 <-> ending = FullWorkflow \/ ending = AlreadyMigrated) /\
  (status = Some 1 <->
     ending = PrerequisiteFailure \/ ending = TargetAbsent \/
     ending = InstallFailure \/ ending = UserInterruption \/
     ending = UncaughtException) /\
  (status = None <-> ending = ProbeInterrupted).
Proof.
  cbn zeta. rewrite exit_status_classified.
  destruct (ending_of w args m); cbn; repeat split;
    intros H; try discriminate H; try reflexivity; try tauto;
    repeat (destruct H as [H|H]; try discriminate H).
Qed.

(** C7.  When the marker file is absent or the new tool's version probe
    fails, the run exits with status 1; the directory is as before and the
    log has no file change. *)
Theorem prerequisite_failure_no_mutation w args m :
  m !! "pyproject.toml" = None \/ fails w uv_version_cmd = true ->
  exit_status (fst (run w args m)) = Some 1 /\
  fs (snd (run w args m)) = m /\
  forallb (fun e => negb (is_mutation e)) (log (snd (run w args m))) = true.
Proof.
  intros H.
  destruct (run w args m) as [r st] eqn:E. revert E.
  destruct H as [H|H]; [|pose proof (fails_not_interrupted _ _ H)].
  all: run_main w.
  all: intros [= <- <-]; cbn.
  all: repeat split; try done.
  all: solve_forallb.
Qed.

(** C10.  With the marker file absent the run exits with status 1, whatever
    [uv.lock] and [--force] are; and the already-migrated notice is printed
    only after the prerequisite check has passed. *)
Theorem prerequisites_before_already_migrated w args m :
  (m !! "pyproject.toml" = None ->
   exit_status (fst (run w args m)) = Some 1) /\
  (printed AlreadyExists (log (snd (run w args m))) ->
   is_Some (m !! "pyproject.toml") /\
   succeeds w uv_version_cmd = true /\
   interrupted w poetry_version_cmd = false).
Proof.
  split.
  - intros H. rewrite exit_status_classified. unfold ending_of.
    by rewrite H.
  - unfold printed.
    destruct (run w args m) as [r st] eqn:E. revert E.
    run_main w.
    all: intros [= <- <-]; cbn [snd log]; intros Hin.
    all: try (exfalso; in_log Hin; fail).
    all: repeat split; try done.
    + by eapply bool_decide_eq_true_1.
    + by apply not_fails_succeeds.
Qed.

(** C6.  With [uv.lock] present and no [--force], the run changes no file:
    the directory is as before and the log has no copy and no deletion.
    The prerequisite check comes first: the run exits with status 0 when
    it passes, and with status 1 when the marker file is absent or the
    version probe of UV fails. *)
Theorem already_migrated_no_mutation w args m :
  is_Some (m !! "uv.lock") -> force args = false ->
  fs (snd (run w args m)) = m /\
  forallb (fun e => negb (is_mutation e)) (log (snd (run w args m))) = true /\
  (is_Some (m !! "pyproject.toml") -> succeeds w uv_version_cmd = true ->
   interrupted w poetry_version_cmd = false ->
   exit_status (fst (run w args m)) = Some 0) /\
  (m !! "pyproject.toml" = None \/ fails w uv_version_cmd = true ->
   exit_status (fst (run w args m)) = Some 1).
Proof.
  intros Hlock Hforce.
  assert (Hl : bool_decide (is_Some (m !! "uv.lock")) = true)
    by by apply bool_decide_eq_true_2.
  split; [|split; [|split]].
  3:{ intros Hm Huv Hp.
      assert (Hm' : bool_decide (is_Some (m !! "pyproject.toml")) = true)
        by by apply bool_decide_eq_true_2.
      destruct (succeeds_completes _ _ Huv) as [Hi Hf].
      rewrite exit_status_classified. unfold ending_of.
      by rewrite Hm', Hi, Hf, Hp, Hl, Hforce. }
  3:{ intros H. rewrite exit_status_classified. unfold ending_of.
      destruct H as [H|H]; [by rewrite H|].
      destruct (bool_decide (is_Some (m !! "pyproject.toml"))); [|done].
      by rewrite (fails_not_interrupted _ _ H), H. }
  all: destruct (run w args m) as [r st] eqn:E; revert E.
  all: run_main w.
  all: intros [= <- <-]; cbn.
  all: try done.
  all: solve_forallb.
Qed.

(** C5.  With [pyproject.uv.toml] absent, [pyproject.toml] is at the end of
    the run what it was at the start.  Unless the run stops as already
    migrated ([uv.lock] present without [--force]) the exit status is not 0;
    it is 1 when no prerequisite probe is interrupted. *)
Theorem target_absent_keeps_config w args m :
  m !! "pyproject.uv.toml" = None ->
  fs (snd (run w args m)) !! "pyproject.toml" = m !! "pyproject.toml" /\
  (m !! "uv.lock" = None \/ force args = true ->
   failure (fst (run w args m)) /\
   (interrupted w uv_version_cmd = false ->
    interrupted w poetry_version_cmd = false ->
    exit_status (fst (run w args m)) = Some 1)).
Proof.
  intros Hput. unfold failure.
  destruct (run w args m) as [r st] eqn:E. revert E.
  run_main_with w ltac:(untouched "pyproject.uv.toml").
  all: intros [= <- <-]; cbn.
  all: split; [by untouched "pyproject.toml"|].
  all: try (intros _; split; [discriminate|intros; congruence]).
  intros [Hn|?]; [|done].
  match goal with
  | H : bool_decide (is_Some (m !! "uv.lock")) = true |- _ =>
      by rewrite Hn in H
  end.
Qed.

(** C8.  When the dependency-install command is run and exits non-zero, the
    run exits with status 1; by then [pyproject.toml] was a regular file and
    has been copied to [pyproject.poetry.toml], [poetry.lock] has its copy
    at [poetry.lock.bak] if it was a regular file, and [pyproject.toml] has
    been overwritten with the text of [pyproject.uv.toml].  All of this is
    still in the directory at the end. *)
Theorem install_failure_after_backup_and_swap w args m :
  ran uv_sync_cmd (log (snd (run w args m))) ->
  fails w uv_sync_cmd = true ->
  exit_status (fst (run w args m)) = Some 1 /\
  (exists c, m !! "pyproject.toml" = Some (File c) /\
             existsb is_config_backup (log (snd (run w args m))) = true /\
             holds_copy (fs (snd (run w args m)))
               "pyproject.poetry.toml" "pyproject.toml" c) /\
  (forall c, m !! "poetry.lock" = Some (File c) ->
             holds_copy (fs (snd (run w args m)))
               "poetry.lock.bak" "poetry.lock" c) /\
  (exists c, m !! "pyproject.uv.toml" = Some (File c) /\
             existsb overwrites_config (log (snd (run w args m))) = true /\
             fs (snd (run w args m)) !! "pyproject.toml" = Some (File c)).
Proof.
  unfold ran. intros Hran Hfail.
  pose proof (fails_not_interrupted _ _ Hfail).
  destruct (run w args m) as [r st] eqn:E. revert E Hran.
  run_main w.
  all: intros [= <- <-]; cbn [fst snd fs log]; intros Hran.
  all: try (exfalso; in_log Hran; fail).
  all: clear Hran.
  all: match goal with
       | Hb : bool_decide (is_Some (?m0 !! "pyproject.toml")) = true,
         Hs : is_dir ?m0 "pyproject.toml" = false /\ _ |- _ =>
           destruct Hs as (Hd & _ & Hpt & Hpl);
           destruct (file_of_present _ _ Hb Hd) as (c0 & Hc0);
           destruct (Hpt _ Hc0) as (Hev & Hh & _)
       end.
  all: match goal with
       | Hu : forall q, _ -> _ -> ?f !! q = _,
         Hc0 : _ !! "pyproject.toml" = Some (File _),
         Hc : fs_copy2 _ _ ?f = Ok ?a |- _ =>
           destruct (swap_after_backup _ _ _ _ Hu Hc0 Hc) as (cu & Hcu & ->)
       end.
  all: split; [reflexivity|].
  all: split; [exists c0; split; [done|]; split|].
  all: try (cbn [existsb]; rewrite ?existsb_app, Hev, ?orb_true_r; done).
  all: try (eapply holds_copy_ext; [|exact Hh]; by rewrite lookup_insert_ne).
  all: split; [intros c Hc; destruct (Hpl _ Hc) as [Hh' _];
               eapply holds_copy_ext; [|exact Hh']; by rewrite lookup_insert_ne|].
  all: exists cu; split; [done|]; split; [|by rewrite lookup_insert_eq].
  all: cbn [existsb]; rewrite ?existsb_app; cbn; by rewrite ?orb_true_r.
Qed.

(** C1.  Let [pyproject.toml], [poetry.lock] and [pyproject.uv.toml] be
    regular files, neither backup path an existing directory, and
    [--cleanup] not given.  When the run reaches its final report, it exits
    with status 0, [pyproject.poetry.toml] has the text [pyproject.toml]
    had, [poetry.lock.bak] the text of [poetry.lock], and [pyproject.toml]
    the text of [pyproject.uv.toml].  The run does reach the final report
    when every command succeeds and it does not stop as already migrated. *)
Theorem backups_and_swap_after_migration w args m c0 cl cu :
  m !! "pyproject.toml" = Some (File c0) ->
  m !! "poetry.lock" = Some (File cl) ->
  m !! "pyproject.uv.toml" = Some (File cu) ->
  is_dir m "pyproject.poetry.toml" = false ->
  is_dir m "poetry.lock.bak" = false ->
  cleanup args = false ->
  (printed NextSteps (log (snd (run w args m))) ->
   exit_status (fst (run w args m)) = Some 0 /\
   fs (snd (run w args m)) !! "pyproject.poetry.toml" = Some (File c0) /\
   fs (snd (run w args m)) !! "poetry.lock.bak" = Some (File cl) /\
   fs (snd (run w args m)) !! "pyproject.toml" = Some (File cu)) /\
  ((forall cmd, succeeds w cmd = true) ->
   m !! "uv.lock" = None \/ force args = true ->
   printed NextSteps (log (snd (run w args m)))).
Proof.
  intros Hpt Hpl Hput Hd1 Hd2 Hclean.
  assert (Hb : bool_decide (is_Some (m !! "pyproject.toml")) = true)
    by (by rewrite Hpt).
  split.
  - unfold printed.
    destruct (run w args m) as [r st] eqn:E. revert E Hpt Hpl Hd1 Hd2.
    run_main_with w ltac:(untouched "pyproject.uv.toml").
    all: intros [= <- <-] Hpt Hpl Hd1 Hd2; cbn [fst snd fs log]; intros Hin.
    all: try (exfalso; in_log Hin; fail).
    all: clear Hin.
    all: match goal with
         | Hu : forall q, _ -> _ -> ?f !! q = _,
           Hc : fs_copy2 _ _ ?f = Ok ?a |- _ =>
             destruct (swap_after_backup _ _ _ _ Hu Hpt Hc) as (cu' & Hcu & ->)
         end.
    all: match goal with
         | Hs : is_dir _ "pyproject.toml" = false /\ _ |- _ =>
             destruct Hs as (_ & _ & Hcfg & Hlck);
             destruct (Hcfg _ Hpt) as (_ & _ & Hb1);
             destruct (Hlck _ Hpl) as (_ & Hb2)
         end.
    all: rewrite !lookup_insert_ne, lookup_insert_eq by done.
    all: rewrite Hb1, Hb2 by done.
    all: repeat split; congruence.
  - intros Hall Hrun.
    pose proof (succeeds_completes _ _ (Hall uv_version_cmd)) as [? ?].
    pose proof (succeeds_completes _ _ (Hall poetry_version_cmd)) as [? ?].
    pose proof (succeeds_completes _ _ (Hall uv_sync_cmd)) as [? ?].
    pose proof (succeeds_completes _ _ (Hall pre_commit_cmd)) as [? ?].
    pose proof (succeeds_completes _ _ (Hall python_version_cmd)) as [? ?].
    pose proof (succeeds_completes _ _ (Hall import_cmd)) as [? ?].
    pose proof (succeeds_completes _ _ (Hall pytest_version_cmd)) as [? ?].
    clear Hall.
    destruct (run w args m) as [r st] eqn:E. revert E Hpt Hpl Hd1 Hd2 Hrun.
    run_main_with w ltac:(untouched "pyproject.uv.toml").
    all: intros [= <- <-] Hpt Hpl Hd1 Hd2 Hrun; cbn [fst snd fs log].
    all: try show_printed.
    all: try match goal with
         | H : backup_existing_files (start _) = (Raise _, _) |- _ =>
             unfold start in H;
             rewrite (backup_existing_files_ok _ _ _ _ Hpt Hpl Hd1 Hd2) in H;
             discriminate H
         end.
    all: try match goal with
         | Hu : forall q, _ -> _ -> ?f !! q = _,
           Hc : fs_copy2 _ _ ?f = Raise _ |- _ =>
             rewrite (fs_copy2_file _ _ _ cu) in Hc;
             [discriminate Hc
             |by rewrite Hu
             |unfold is_dir; by rewrite Hu, Hpt]
         end.
    all: destruct Hrun as [Hn|Hf]; [|discriminate Hf].
    all: match goal with
         | H : bool_decide (is_Some (_ !! "uv.lock")) = true |- _ =>
             by rewrite Hn in H
         end.
Qed.

(** C9.  With [--cleanup], a run that ends with status 0 and is not the
    already-migrated stop has gone through the cleanup step, and
    [poetry.lock.bak], [pyproject.poetry.toml] and [.venv] are not in the
    directory at its end.  Without [--cleanup] no event of the run is a
    deletion, and the cleanup step itself only prints that it keeps the
    backups. *)
Theorem cleanup_removes_or_keeps w args m :
  (cleanup args = true ->
   m !! "uv.lock" = None \/ force args = true ->
   exit_status (fst (run w args m)) = Some 0 ->
   printed CleaningUp (log (snd (run w args m))) /\
   fs (snd (run w args m)) !! "poetry.lock.bak" = None /\
   fs (snd (run w args m)) !! "pyproject.poetry.toml" = None /\
   fs (snd (run w args m)) !! ".venv" = None) /\
  (cleanup args = false ->
   forallb (fun e => negb (is_deletion e)) (log (snd (run w args m))) = true) /\
  (forall st,
     cleanup_poetry_files true st =
     (Ok tt, mkState (fs st) (log st ++ [Print KeepingBackups]))).
Proof.
  split; [|split].
  - unfold printed. intros Hc Hrun.
    destruct (run w args m) as [r st] eqn:E. revert E Hrun.
    run_main w.
    all: intros [= <- <-] Hrun; cbn [fst snd fs log exit_status]; intros Hexit.
    all: try discriminate Hexit.
    all: clear Hexit.
    all: try (exfalso; destruct Hrun as [Hn|Hf]; [|discriminate Hf];
              match goal with
              | H : bool_decide (is_Some (_ !! "uv.lock")) = true |- _ =>
                  by rewrite Hn in H
              end).
    all: try match goal with
             | H : exists evs', _ = _ |- _ => destruct H as [? ->]
             end.
    all: split; [find_in|].
    all: rewrite ?lookup_delete_eq;
         rewrite ?(lookup_delete_ne _ ".venv") by done;
         rewrite ?lookup_delete_eq;
         rewrite ?(lookup_delete_ne _ "pyproject.poetry.toml") by done;
         rewrite ?lookup_delete_eq.
    all: done.
  - intros Hc.
    destruct (run w args m) as [r st] eqn:E. revert E.
    run_main w.
    all: intros [= <- <-]; cbn [fst snd fs log].
    all: solve_forallb.
  - reflexivity.
Qed.


(** C4.  Wherever the log of a run has an event that overwrites
    [pyproject.toml], that event is the copy of [pyproject.uv.toml] made by
    the configuration step, and before it the backup step has run to its
    end: [pyproject.toml] was a regular file, the log up to that event has
    its copy to [pyproject.poetry.toml], and the directory as that part of
    the log leaves it holds the copy with the original text. *)
Theorem backup_precedes_swap w args m pre e post :
  log (snd (run w args m)) = pre ++ e :: post ->
  overwrites_config e = true ->
  e = Copied "pyproject.uv.toml" "pyproject.toml" /\
  printed BackupsCreated pre /\
  existsb is_config_backup pre = true /\
  exists c, m !! "pyproject.toml" = Some (File c) /\
            holds_copy (replay pre m)
              "pyproject.poetry.toml" "pyproject.toml" c.
Proof.
  intros Hs He.
  destruct (run w args m) as [r st] eqn:E. revert E Hs.
  run_main w.
  all: intros [= <- <-]; cbn [fst snd fs log]; intros Hs.
  all: try (exfalso; eapply no_overwrite_in; [|exact Hs|exact He];
            apply existsb_false; solve_forallb; fail).
  all: rewrite <- ?app_assoc in Hs; cbn [app] in Hs.
  all: eapply overwrite_is_the_swap in Hs;
         [|eassumption|eassumption|apply existsb_false; solve_forallb
          |exact He].
  all: destruct Hs as [-> ->].
  all: split; [reflexivity|].
  all: match goal with
       | Hb : bool_decide (is_Some (?m0 !! "pyproject.toml")) = true,
         Hf : is_dir ?m0 "pyproject.toml" = false /\ _,
         Hr : backup_existing_files (start ?m0) = _ |- _ =>
           destruct Hf as (Hd & _ & Hpt & _);
           destruct (file_of_present _ _ Hb Hd) as (c0 & Hc0);
           destruct (Hpt _ Hc0) as (Hev & Hh & _);
           apply backups_created in Hr
       end.
  all: split; [unfold printed; cbn [In]; right; right;
               rewrite !in_app_iff; by auto|].
  all: split; [cbn [existsb is_config_backup]; rewrite !existsb_app, Hev;
               by rewrite ?orb_true_r|].
  all: exists c0; split; [done|].
  all: rewrite !replay_cons; cbn [apply_event]; rewrite !replay_app.
  all: rewrite (replay_quiet x0)
         by (eapply from_no_mutation; [|eassumption]; reflexivity).
  all: exact Hh.
Qed.

(** ** The properties on sample runs *)

Ltac compute_in := vm_compute; solve [repeat first [left; reflexivity | right]].

(** C2, as first stated, fails where the user interrupts a prerequisite
    probe: the exception leaves [main] and the status is not 1. *)
Lemma probe_interruption_status :
  let w := except tools_work uv_version_cmd Interrupted in
  interrupted w uv_version_cmd = true /\
  fst (run w no_options poetry_project) = Raise KeyboardInterrupt /\
  exit_status (fst (run w no_options poetry_project)) <> Some 1.
Proof. cbv zeta. repeat split; by vm_compute. Qed.

Lemma exit_status_by_ending_witness :
  let w := except tools_work uv_sync_cmd Interrupted in
  let status := exit_status (fst (run w no_options poetry_project)) in
  let ending := ending_of w no_options poetry_project in
  (status = Some 0 <-> ending = FullWorkflow \/ ending = AlreadyMigrated) /\
  (status = Some 1 <->
     ending = PrerequisiteFailure \/ ending = TargetAbsent \/
     ending = InstallFailure \/ ending = UserInterruption \/
     ending = UncaughtException) /\
  (status = None <-> ending = ProbeInterrupted).
Proof.
  exact (exit_status_by_ending (except tools_work uv_sync_cmd Interrupted)
           no_options poetry_project).
Defined.

(** C1, as first stated, fails where a backup path is an existing
    directory: the copy goes inside it. *)
Lemma backup_into_existing_directory :
  let m := <["pyproject.poetry.toml" := Dir []]> poetry_project in
  let st := snd (run tools_work no_options m) in
  m !! "pyproject.toml" = Some (File "[tool.poetry]") /\
  m !! "poetry.lock" = Some (File "poetry-lock") /\
  m !! "pyproject.uv.toml" = Some (File "[project]") /\
  (forall cmd, succeeds tools_work cmd = true) /\
  exit_status (fst (run tools_work no_options m)) = Some 0 /\
  printed NextSteps (log st) /\
  fs st !! "pyproject.poetry.toml" =
    Some (Dir [("pyproject.toml", File "[tool.poetry]")]).
Proof.
  cbv zeta.
  split; [by vm_compute|]. split; [by vm_compute|]. split; [by vm_compute|].
  split; [by intros cmd|]. split; [by vm_compute|].
  split; [unfold printed; compute_in|]. by vm_compute.
Qed.

Lemma backups_and_swap_after_migration_witness :
  (printed NextSteps (log (snd (run tools_work no_options poetry_project))) ->
   exit_status (fst (run tools_work no_options poetry_project)) = Some 0 /\
   fs (snd (run tools_work no_options poetry_project))
     !! "pyproject.poetry.toml" = Some (File "[tool.poetry]") /\
   fs (snd (run tools_work no_options poetry_project))
     !! "poetry.lock.bak" = Some (File "poetry-lock") /\
   fs (snd (run tools_work no_options poetry_project))
     !! "pyproject.toml" = Some (File "[project]")) /\
  ((forall cmd, succeeds tools_work cmd = true) ->
   poetry_project !! "uv.lock" = None \/ force no_options = true ->
   printed NextSteps (log (snd (run tools_work no_options poetry_project)))).
Proof.
  apply (backups_and_swap_after_migration tools_work no_options poetry_project
           "[tool.poetry]" "poetry-lock" "[project]");
    vm_compute; reflexivity.
Defined.



(** C5, as first stated, fails where the run stops as already migrated. *)
Lemma target_absent_already_migrated :
  let m := delete "pyproject.uv.toml" migrated_project in
  m !! "pyproject.uv.toml" = None /\
  exit_status (fst (run tools_work no_options m)) = Some 0.
Proof. cbv zeta. split; by vm_compute. Qed.

Lemma target_absent_keeps_config_witness :
  let m := delete "pyproject.uv.toml" poetry_project in
  fs (snd (run tools_work no_options m)) !! "pyproject.toml" =
    m !! "pyproject.toml" /\
  (m !! "uv.lock" = None \/ force no_options = true ->
   failure (fst (run tools_work no_options m)) /\
   (interrupted tools_work uv_version_cmd = false ->
    interrupted tools_work poetry_version_cmd = false ->
    exit_status (fst (run tools_work no_options m)) = Some 1)).
Proof.
  cbv zeta. apply target_absent_keeps_config. vm_compute. reflexivity.
Defined.

(** C6, as first stated, fails where the marker file is absent. *)
Lemma already_migrated_marker_absent :
  let m := delete "pyproject.toml" migrated_project in
  is_Some (m !! "uv.lock") /\ force no_options = false /\
  exit_status (fst (run tools_work no_options m)) = Some 1.
Proof.
  cbv zeta. split; [|split]; [|done|by vm_compute].
  eexists. vm_compute. reflexivity.
Qed.

Lemma already_migrated_no_mutation_witness :
  fs (snd (run tools_work no_options migrated_project)) = migrated_project /\
  forallb (fun e => negb (is_mutation e))
    (log (snd (run tools_work no_options migrated_project))) = true /\
  (is_Some (migrated_project !! "pyproject.toml") ->
   succeeds tools_work uv_version_cmd = true ->
   interrupted tools_work poetry_version_cmd = false ->
   exit_status (fst (run tools_work no_options migrated_project)) = Some 0) /\
  (migrated_project !! "pyproject.toml" = None \/
   fails tools_work uv_version_cmd = true ->
   exit_status (fst (run tools_work no_options migrated_project)) = Some 1).
Proof.
  apply already_migrated_no_mutation; [|reflexivity].
  eexists. vm_compute. reflexivity.
Defined.

Lemma prerequisite_failure_no_mutation_witness :
  let w := except tools_work uv_version_cmd command_not_found in
  exit_status (fst (run w no_options poetry_project)) = Some 1 /\
  fs (snd (run w no_options poetry_project)) = poetry_project /\
  forallb (fun e => negb (is_mutation e))
    (log (snd (run w no_options poetry_project))) = true.
Proof.
  cbv zeta. apply prerequisite_failure_no_mutation. right.
  vm_compute. reflexivity.
Defined.

Lemma prerequisites_before_already_migrated_witness :
  exit_status
    (fst (run tools_work no_options (delete "pyproject.toml" migrated_project)))
  = Some 1.
Proof.
  apply (proj1 (prerequisites_before_already_migrated tools_work no_options
                  (delete "pyproject.toml" migrated_project))).
  vm_compute. reflexivity.
Defined.

Lemma install_failure_after_backup_and_swap_witness :
  let w := except tools_work uv_sync_cmd
             (Completed 1 "no output" "resolution failed") in
  exit_status (fst (run w no_options poetry_project)) = Some 1 /\
  (exists c, poetry_project !! "pyproject.toml" = Some (File c) /\
             existsb is_config_backup
               (log (snd (run w no_options poetry_project))) = true /\
             holds_copy (fs (snd (run w no_options poetry_project)))
               "pyproject.poetry.toml" "pyproject.toml" c) /\
  (forall c, poetry_project !! "poetry.lock" = Some (File c) ->
             holds_copy (fs (snd (run w no_options poetry_project)))
               "poetry.lock.bak" "poetry.lock" c) /\
  (exists c, poetry_project !! "pyproject.uv.toml" = Some (File c) /\
             existsb overwrites_config
               (log (snd (run w no_options poetry_project))) = true /\
             fs (snd (run w no_options poetry_project)) !! "pyproject.toml"
             = Some (File c)).
Proof.
  cbv zeta. apply install_failure_after_backup_and_swap.
  - unfold ran. compute_in.
  - vm_compute. reflexivity.
Defined.

Lemma cleanup_removes_or_keeps_witness :
  let m := delete "uv.lock" migrated_project in
  printed CleaningUp (log (snd (run tools_work with_cleanup m))) /\
  fs (snd (run tools_work with_cleanup m)) !! "poetry.lock.bak" = None /\
  fs (snd (run tools_work with_cleanup m)) !! "pyproject.poetry.toml" = None /\
  fs (snd (run tools_work with_cleanup m)) !! ".venv" = None.
Proof.
  cbv zeta.
  apply (proj1 (cleanup_removes_or_keeps tools_work with_cleanup
                  (delete "uv.lock" migrated_project))).
  - reflexivity.
  - left. vm_compute. reflexivity.
  - vm_compute. reflexivity.
Defined.

Lemma backup_precedes_swap_witness :
  let l := log (snd (run tools_work no_options poetry_project)) in
  let pre := take 14 l in
  Copied "pyproject.uv.toml" "pyproject.toml"
  = Copied "pyproject.uv.toml" "pyproject.toml" /\
  printed BackupsCreated pre /\
  existsb is_config_backup pre = true /\
  exists c, poetry_project !! "pyproject.toml" = Some (File c) /\
            holds_copy (replay pre poetry_project)
              "pyproject.poetry.toml" "pyproject.toml" c.
Proof.
  cbv zeta.
  apply (backup_precedes_swap tools_work no_options poetry_project
           (take 14 (log (snd (run tools_work no_options poetry_project))))
           (Copied "pyproject.uv.toml" "pyproject.toml")
           (drop 15 (log (snd (run tools_work no_options poetry_project)))));
    vm_compute; reflexivity.
Defined.

(** * Further properties

    ** The steps on their own *)


(** With the marker file absent, the run prints its notice and exits with
    status 1 without running any command. *)
Theorem marker_absent_run w args m :
  m !! "pyproject.toml" = None ->
  run w args m =
  (Raise (SystemExit 1),
   mkState m [Print Banner; Print Rule; Print CheckingPrerequisites;
              Print NoPyproject]).
Proof.
  intros H. unfold run, main, check_prerequisites, start; unfold_monad.
  cbn. rewrite H. reflexivity.
Qed.

(** When the version probe of UV fails, Poetry is not probed: the run
    prints the install hint and exits with status 1. *)
Theorem uv_missing_run w args m rc out err :
  is_Some (m !! "pyproject.toml") ->
  w uv_version_cmd = Completed rc out err -> rc <> 0 ->
  run w args m =
  (Raise (SystemExit 1),
   mkState m [Print Banner; Print Rule; Print CheckingPrerequisites;
              Exec uv_version_cmd; Print UvNotFound; Print UvInstallHint]).
Proof.
  intros Hm Hw Hrc.
  unfold run, main, check_prerequisites, run_command, start; unfold_monad.
  cbn. rewrite bool_decide_eq_true_2 by done. cbn. rewrite Hw. cbn.
  apply Z.eqb_neq in Hrc. rewrite Hrc. reflexivity.
Qed.

(** The backup step changes no path but the two backup paths, whether it
    returns or a copy raises. *)
Theorem backup_changes_only_backups st p :
  p <> "pyproject.poetry.toml" -> p <> "poetry.lock.bak" ->
  fs (snd (backup_existing_files st)) !! p = fs st !! p.
Proof.
  intros Hp1 Hp2. destruct st as [f l].
  destruct (backup_existing_files_spec f l)
    as (r & f' & evs & -> & _ & _ & _ & Hf & _).
  by apply Hf.
Qed.

(** ** The run as a whole *)

(** [main] returns, rather than exits, exactly when the final report is
    printed. *)
Theorem final_report_iff_returns w args m :
  fst (run w args m) = Ok tt <->
  printed NextSteps (log (snd (run w args m))).
Proof.
  unfold printed.
  destruct (run w args m) as [r st] eqn:E. revert E.
  run_main w.
  all: intros [= <- <-]; cbn [fst snd fs log].
  all: split; [intros Hr|intros Hin].
  all: try discriminate Hr.
  all: try (exfalso; in_log Hin; fail).
  all: try reflexivity.
  all: show_printed.
Qed.

(** With [--force] the already-migrated notice is never printed: a run
    that exits with status 0 has gone through the whole workflow. *)
Theorem force_runs_workflow w args m :
  force args = true ->
  ~ printed AlreadyExists (log (snd (run w args m))) /\
  (exit_status (fst (run w args m)) = Some 0 ->
   printed NextSteps (log (snd (run w args m)))).
Proof.
  unfold printed. intros Hf.
  destruct (run w args m) as [r st] eqn:E. revert E.
  run_main w.
  all: intros [= <- <-]; cbn [fst snd fs log].
  all: split; [intros Hin; in_log Hin|intros Hr].
  all: try discriminate Hr.
  all: show_printed.
Qed.


(** An interruption while the prerequisites are probed is outside the
    protected segment: [KeyboardInterrupt] leaves [main], no cancellation
    notice is printed and no file is changed. *)
Theorem probe_interruption_escapes w args m :
  is_Some (m !! "pyproject.toml") ->
  interrupted w uv_version_cmd = true \/
  succeeds w uv_version_cmd = true /\ interrupted w poetry_version_cmd = true ->
  fst (run w args m) = Raise KeyboardInterrupt /\
  fs (snd (run w args m)) = m /\
  ~ printed Cancelled (log (snd (run w args m))).
Proof.
  intros Hm H.
  unfold run, main, check_prerequisites, run_command, start,
    interrupted, succeeds in *; unfold_monad.
  cbn. rewrite bool_decide_eq_true_2 by done. cbn.
  destruct (w uv_version_cmd) as [rc out err|]; cbn.
  - destruct H as [H|[-> H]]; [done|]. cbn.
    destruct (w poetry_version_cmd); [done|]. cbn.
    repeat split. unfold printed. cbn. intuition discriminate.
  - repeat split. unfold printed. cbn. intuition discriminate.
Qed.



(** ** The further properties on sample runs *)


Lemma marker_absent_run_witness :
  run tools_work no_options (delete "pyproject.toml" migrated_project) =
  (Raise (SystemExit 1),
   mkState (delete "pyproject.toml" migrated_project)
     [Print Banner; Print Rule; Print CheckingPrerequisites;
      Print NoPyproject]).
Proof. apply marker_absent_run. vm_compute. reflexivity. Defined.

Lemma uv_missing_run_witness :
  run (except tools_work uv_version_cmd command_not_found) no_options
    poetry_project =
  (Raise (SystemExit 1),
   mkState poetry_project
     [Print Banner; Print Rule; Print CheckingPrerequisites;
      Exec uv_version_cmd; Print UvNotFound; Print UvInstallHint]).
Proof.
  apply (uv_missing_run _ no_options poetry_project 127
           "no output" "not found").
  - eexists. vm_compute. reflexivity.
  - vm_compute. reflexivity.
  - lia.
Defined.

Lemma probe_interruption_escapes_witness :
  let w := except tools_work poetry_version_cmd Interrupted in
  fst (run w no_options poetry_project) = Raise KeyboardInterrupt /\
  fs (snd (run w no_options poetry_project)) = poetry_project /\
  ~ printed Cancelled (log (snd (run w no_options poetry_project))).
Proof.
  cbv zeta. apply probe_interruption_escapes.
  - eexists. vm_compute. reflexivity.
  - right. split; vm_compute; reflexivity.
Defined.

Lemma backup_changes_only_backups_witness :
  fs (snd (backup_existing_files (start poetry_project))) !! "poetry.lock"
  = fs (start poetry_project) !! "poetry.lock".
Proof. apply backup_changes_only_backups; discriminate. Defined.

Lemma force_runs_workflow_witness :
  ~ printed AlreadyExists (log (snd (run tools_work with_force migrated_project)))
  /\
  (exit_status (fst (run tools_work with_force migrated_project)) = Some 0 ->
   printed NextSteps (log (snd (run tools_work with_force migrated_project)))).
Proof. apply force_runs_workflow. reflexivity. Defined.

